(** * Interactive agenda: a shallow embedding of Helper.c and Source.c

    The program keeps a fixed schedule of ten activities, a simulated clock
    driven by a ticker thread, two per-minute latches (one for the start
    trigger, one for the due-soon trigger), a line accumulator for the
    non-blocking time query and a blocking yes/no prompt.

    Conventions of the embedding:
    - C [int] values are integers of [Z]; every sum the program forms on
      them ([tm_hour + 1], [minute + 60], [1UL << i] for an index below
      [MAX_ACTIVITIES]) stays far inside the 32-bit range, so no wrap-around
      term appears, except in [atoi], where it is written out;
    - [double total_time] is an IEEE binary64 value ([PrimFloat.float]);
    - a C string is a [string]; a [char] array is a [list ascii] read up to
      its first NUL by [cstr];
    - an [activity*] is an index into the array [activities] of the state;
    - the static [struct tm] that [localtime] returns is the field
      [local_tm] of the state: [time_info.local_time] and [t_local] of
      [parse_time] both point to it;
    - what the process prints is a list of [event]s, oldest first; the
      terminal-mode calls, the busy-wait delays and the escape codes of
      [clear_terminal] carry no data and are the single event
      [ClearScreen];
    - the results of the system calls are inputs of the model: the tokens
      [scanf("%s")] will return, the bytes each [read] returns, the real
      time [time] returns, and the number of ticker rounds between two
      samples of the clock. *)

From Stdlib Require Import ZArith List String Ascii Bool Lia Floats Uint63.
From stdpp Require Import base list.

Local Open Scope Z_scope.

(** ** Constants of Helper.h and Source.c *)

Definition MAX_ACTIVITIES : nat := 10.
Definition MAX_LENGTH : nat := 20.
Definition delay_us : Z := 100000.

(** ** Data model *)

Record atime := { hour : Z; minute : Z }.

Record activity := {
  name : string;
  start_time : atime;
  end_time : atime;
  done : Z
}.

(** The fields of [struct tm] the program reads. *)
Record tm := { tm_sec : Z; tm_min : Z; tm_hour : Z }.

(** The static latch of [is_scheduled], and the one of [is_due_soon]. *)
Record latch := { previous_min : Z; check_flags : Z }.

Inductive event :=
| SpeedPrompt
| TimeFor (n : string)
| DueSoonNotice (n : string)
| AskDoing (n : string)
| MarkedDone (n : string)
| AlreadyDone (n : string)
| NoActivity
| FormatHint
| ClearScreen.

Record state := {
  activities : list activity;
  speed_factor : Z;
  total_time : float;
  get_current_time_flag : bool;
  current_time : Z;
  local_tm : tm;
  sched_latch : latch;
  due_latch : latch;
  idx : nat;
  temp_buf : list ascii;
  (* environment *)
  utc_offset : Z;
  real_time : Z;
  stdin_tokens : list string;
  output : list event
}.

(** The schedule compiled into [main]. *)
Definition mk_activity (n : string) (sh sm eh em : Z) : activity :=
  {| name := n; start_time := {| hour := sh; minute := sm |};
     end_time := {| hour := eh; minute := em |}; done := 0 |}.

Definition initial_activities : list activity :=
  [ mk_activity "Breakfast" 8 50 9 30;
    mk_activity "Morning walk" 9 0 10 15;
    mk_activity "House cleaning" 10 20 10 55;
    mk_activity "Lunch" 11 0 12 0;
    mk_activity "Afternoon nap" 13 45 15 0;
    mk_activity "Grocery shopping" 15 20 15 45;
    mk_activity "Cooking" 16 15 17 30;
    mk_activity "Dinner" 17 45 18 30;
    mk_activity "Evening reading" 19 0 21 30;
    mk_activity "Get medicine" 21 30 21 45 ].

(** ** is_activity_time (Helper.c, 86-109) *)

Definition is_activity_time (a : activity) (t : tm) : bool :=
  if (hour (start_time a) <? tm_hour t) && (hour (end_time a) >? tm_hour t) then true
  else if hour (start_time a) =? tm_hour t then
    if (minute (start_time a) <=? tm_min t) && (minute (end_time a) >? tm_min t) then true
    else if (hour (end_time a) >? tm_hour t) && (minute (start_time a) <=? tm_min t) then true
    else false
  else if hour (end_time a) =? tm_hour t then
    if minute (end_time a) >? tm_min t then true else false
  else false.

(** Time-of-day vocabulary used by the statements. *)

Definition valid_atime (x : atime) : Prop :=
  0 <= hour x <= 23 /\ 0 <= minute x <= 59.

Definition valid_tm (t : tm) : Prop :=
  0 <= tm_hour t <= 23 /\ 0 <= tm_min t <= 59.

(** Hour:minute lexical order. *)
Definition atime_lt (x y : atime) : Prop :=
  hour x < hour y \/ (hour x = hour y /\ minute x < minute y).

(** Minute of the day. *)
Definition minute_of_day (h m : Z) : Z := 60 * h + m.

(** The sample time that falls on minute [n] of the day. *)
Definition tm_of_minute (n : Z) : tm :=
  {| tm_sec := 0; tm_min := n mod 60; tm_hour := n / 60 |}.

Definition start_minute (a : activity) : Z :=
  minute_of_day (hour (start_time a)) (minute (start_time a)).

Definition end_minute (a : activity) : Z :=
  minute_of_day (hour (end_time a)) (minute (end_time a)).

Definition tm_minute (t : tm) : Z := minute_of_day (tm_hour t) (tm_min t).

(** ** The C library calls of the program

    [sscanf] with the format ["%d:%d"], [atoi], [strcmp] (as [String.eqb]),
    [localtime] and the conversions between [time_t] and [double]. *)

Definition isspace (c : ascii) : bool :=
  let n := nat_of_ascii c in
  Nat.eqb n 32 || (Nat.leb 9 n && Nat.leb n 13).

Definition isdigit (c : ascii) : bool :=
  let n := nat_of_ascii c in
  Nat.leb 48 n && Nat.leb n 57.

Definition digit_value (c : ascii) : Z := Z.of_nat (nat_of_ascii c) - 48.

Fixpoint skip_space (s : string) : string :=
  match s with
  | String c r => if isspace c then skip_space r else s
  | EmptyString => s
  end.

Fixpoint scan_digits (s : string) (acc : Z) : Z * string :=
  match s with
  | String c r =>
      if isdigit c then scan_digits r (10 * acc + digit_value c) else (acc, s)
  | EmptyString => (acc, s)
  end.

Inductive conversion :=
| Converted (v : Z) (rest : string)
| InputFailure
| MatchingFailure.

(** One [%d] directive: white space is skipped, one sign is accepted, then
    at least one decimal digit is required. The value is not reduced to 32
    bits: the program scans only strings of five characters. *)
Definition scan_int (s : string) : conversion :=
  match skip_space s with
  | EmptyString => InputFailure
  | String c r =>
      let signed := Ascii.eqb c "-" || Ascii.eqb c "+" in
      let body := if signed then r else String c r in
      match body with
      | String d _ =>
          if isdigit d then
            let (v, rest) := scan_digits body 0 in
            Converted (if Ascii.eqb c "-" then - v else v) rest
          else MatchingFailure
      | EmptyString => MatchingFailure
      end
  end.

(** [sscanf(s, "%d:%d", &h, &m)]: the return value and what was stored. *)
Definition sscanf_d_colon_d (s : string) : Z * option Z * option Z :=
  match scan_int s with
  | InputFailure => (-1, None, None)
  | MatchingFailure => (0, None, None)
  | Converted h rest =>
      match rest with
      | String c rest' =>
          if Ascii.eqb c ":" then
            match scan_int rest' with
            | Converted m _ => (2, Some h, Some m)
            | _ => (1, Some h, None)
            end
          else (1, Some h, None)
      | EmptyString => (1, Some h, None)
      end
  end.

Definition wrap_int (z : Z) : Z := (z + 2 ^ 31) mod 2 ^ 32 - 2 ^ 31.

Definition clamp_long (z : Z) : Z := Z.max (- 2 ^ 63) (Z.min (2 ^ 63 - 1) z).

(** [atoi] is [(int) strtol(s, NULL, 10)]. *)
Definition atoi (s : string) : Z :=
  match scan_int s with
  | Converted v _ => wrap_int (clamp_long v)
  | _ => 0
  end.

(** [localtime] of a process whose zone is [off] seconds east of UTC. *)
Definition localtime (off : Z) (t : Z) : tm :=
  let s := t + off in
  {| tm_sec := s mod 60; tm_min := (s / 60) mod 60; tm_hour := (s / 3600) mod 24 |}.

(** [(double) z] for a [time_t] or an [int]: rounded to nearest. *)
Definition double_of_Z (z : Z) : float :=
  if z <? 0 then PrimFloat.opp (PrimFloat.of_uint63 (Uint63.of_Z (- z)))
  else PrimFloat.of_uint63 (Uint63.of_Z z).

(** [(time_t) f]: the fraction is discarded (truncation toward zero). The
    conversion of a NaN or an infinity is undefined in C; the model
    gives 0. *)
Definition Z_of_double (f : float) : Z :=
  match Prim2SF f with
  | S754_finite sign m e =>
      let mag := if 0 <=? e then Z.pos m * 2 ^ e else Z.pos m / 2 ^ (- e) in
      if sign then - mag else mag
  | _ => 0
  end.

(** ** check_input (Helper.c, 123-148) *)

Definition check_input (input : string) : Z :=
  if String.eqb input "now" then 1
  else if negb (Nat.eqb (String.length input) 5)
          || negb (match String.get 2 input with
                   | Some c => Ascii.eqb c ":"
                   | None => false
                   end)
  then 0
  else
    match sscanf_d_colon_d input with
    | (2, Some hour_, Some minute_) =>
        if (hour_ <? 0) || (hour_ >? 23) || (minute_ <? 0) || (minute_ >? 59)
        then 0 else 1
    | _ => 0
    end.

(** The grammar of the time query as the specification words it: the token
    "now", or five characters HH:MM, digits only in the four numeric
    positions, HH at most 23 and MM at most 59. *)
Definition two_digits (a b : ascii) : Z := 10 * digit_value a + digit_value b.

Definition time_query_grammar (input : string) : bool :=
  String.eqb input "now" ||
  match input with
  | String h1 (String h2 (String c (String m1 (String m2 EmptyString)))) =>
      Ascii.eqb c ":" && isdigit h1 && isdigit h2 && isdigit m1 && isdigit m2
      && (two_digits h1 h2 <=? 23) && (two_digits m1 m2 <=? 59)
  | _ => false
  end.

(** ** Field updates of the state *)

Definition with_activities (v : list activity) (s : state) : state :=
  {| activities := v; speed_factor := speed_factor s; total_time := total_time s;
     get_current_time_flag := get_current_time_flag s; current_time := current_time s;
     local_tm := local_tm s; sched_latch := sched_latch s; due_latch := due_latch s;
     idx := idx s; temp_buf := temp_buf s; utc_offset := utc_offset s;
     real_time := real_time s; stdin_tokens := stdin_tokens s; output := output s |}.

Definition with_speed_factor (v : Z) (s : state) : state :=
  {| activities := activities s; speed_factor := v; total_time := total_time s;
     get_current_time_flag := get_current_time_flag s; current_time := current_time s;
     local_tm := local_tm s; sched_latch := sched_latch s; due_latch := due_latch s;
     idx := idx s; temp_buf := temp_buf s; utc_offset := utc_offset s;
     real_time := real_time s; stdin_tokens := stdin_tokens s; output := output s |}.

Definition with_total_time (v : float) (s : state) : state :=
  {| activities := activities s; speed_factor := speed_factor s; total_time := v;
     get_current_time_flag := get_current_time_flag s; current_time := current_time s;
     local_tm := local_tm s; sched_latch := sched_latch s; due_latch := due_latch s;
     idx := idx s; temp_buf := temp_buf s; utc_offset := utc_offset s;
     real_time := real_time s; stdin_tokens := stdin_tokens s; output := output s |}.

Definition with_current_time (flag : bool) (v : Z) (s : state) : state :=
  {| activities := activities s; speed_factor := speed_factor s; total_time := total_time s;
     get_current_time_flag := flag; current_time := v;
     local_tm := local_tm s; sched_latch := sched_latch s; due_latch := due_latch s;
     idx := idx s; temp_buf := temp_buf s; utc_offset := utc_offset s;
     real_time := real_time s; stdin_tokens := stdin_tokens s; output := output s |}.

Definition with_local_tm (v : tm) (s : state) : state :=
  {| activities := activities s; speed_factor := speed_factor s; total_time := total_time s;
     get_current_time_flag := get_current_time_flag s; current_time := current_time s;
     local_tm := v; sched_latch := sched_latch s; due_latch := due_latch s;
     idx := idx s; temp_buf := temp_buf s; utc_offset := utc_offset s;
     real_time := real_time s; stdin_tokens := stdin_tokens s; output := output s |}.

Definition with_sched_latch (v : latch) (s : state) : state :=
  {| activities := activities s; speed_factor := speed_factor s; total_time := total_time s;
     get_current_time_flag := get_current_time_flag s; current_time := current_time s;
     local_tm := local_tm s; sched_latch := v; due_latch := due_latch s;
     idx := idx s; temp_buf := temp_buf s; utc_offset := utc_offset s;
     real_time := real_time s; stdin_tokens := stdin_tokens s; output := output s |}.

Definition with_due_latch (v : latch) (s : state) : state :=
  {| activities := activities s; speed_factor := speed_factor s; total_time := total_time s;
     get_current_time_flag := get_current_time_flag s; current_time := current_time s;
     local_tm := local_tm s; sched_latch := sched_latch s; due_latch := v;
     idx := idx s; temp_buf := temp_buf s; utc_offset := utc_offset s;
     real_time := real_time s; stdin_tokens := stdin_tokens s; output := output s |}.

Definition with_line (i : nat) (b : list ascii) (s : state) : state :=
  {| activities := activities s; speed_factor := speed_factor s; total_time := total_time s;
     get_current_time_flag := get_current_time_flag s; current_time := current_time s;
     local_tm := local_tm s; sched_latch := sched_latch s; due_latch := due_latch s;
     idx := i; temp_buf := b; utc_offset := utc_offset s;
     real_time := real_time s; stdin_tokens := stdin_tokens s; output := output s |}.

Definition with_stdin_tokens (v : list string) (s : state) : state :=
  {| activities := activities s; speed_factor := speed_factor s; total_time := total_time s;
     get_current_time_flag := get_current_time_flag s; current_time := current_time s;
     local_tm := local_tm s; sched_latch := sched_latch s; due_latch := due_latch s;
     idx := idx s; temp_buf := temp_buf s; utc_offset := utc_offset s;
     real_time := real_time s; stdin_tokens := v; output := output s |}.

Definition with_output (v : list event) (s : state) : state :=
  {| activities := activities s; speed_factor := speed_factor s; total_time := total_time s;
     get_current_time_flag := get_current_time_flag s; current_time := current_time s;
     local_tm := local_tm s; sched_latch := sched_latch s; due_latch := due_latch s;
     idx := idx s; temp_buf := temp_buf s; utc_offset := utc_offset s;
     real_time := real_time s; stdin_tokens := stdin_tokens s; output := v |}.

(** ** The monad of the program: state, and the ways a call does not return *)

Inductive stuck :=
| AwaitingInput   (* a blocking [scanf] with nothing left to read *)
| BufferOverrun   (* a write past the end of a [MAX_LENGTH] array *)
| BadPointer      (* an [activity*] outside the array *)
| StillPolling.   (* the poll loop is still running when the trace ends *)

Inductive outcome (A : Type) :=
| Ret (a : A) (s : state)
| Stuck (w : stuck) (s : state).

Arguments Ret {A} a s.
Arguments Stuck {A} w s.

Definition M (A : Type) : Type := state -> outcome A.

Definition ret {A} (a : A) : M A := fun s => Ret a s.

Definition bind {A B} (c : M A) (k : A -> M B) : M B :=
  fun s => match c s with
           | Ret a s' => k a s'
           | Stuck w s' => Stuck w s'
           end.

Notation "x <- c ;; k" := (bind c (fun x => k))
  (at level 100, c at next level, right associativity).
Notation "c ;;; k" := (bind c (fun _ => k))
  (at level 100, right associativity).

Definition final_state {A} (o : outcome A) : state :=
  match o with Ret _ s => s | Stuck _ s => s end.

Definition modify (f : state -> state) : M unit := fun s => Ret tt (f s).

Definition printf (e : event) : M unit :=
  modify (fun s => with_output (output s ++ [e]) s).

(** [clear_terminal] (Helper.c, 48-52). *)
Definition clear_terminal : M unit := printf ClearScreen.

(** ** activity_time (Helper.c, 164-189) *)

(** The [do ... while] of the prompt, run over the tokens [scanf] returns:
    the result, the tokens left and the output. The loop goes on while the
    token is neither "yes" nor "no". *)
Fixpoint confirm_loop (n : string) (toks : list string) (out : list event)
  : (string + stuck) * list string * list event :=
  match toks with
  | [] => (inr AwaitingInput, [], out ++ [AskDoing n])
  | user_input :: rest =>
      if Nat.leb MAX_LENGTH (String.length user_input)
      then (inr BufferOverrun, rest, out ++ [AskDoing n])
      else if negb (Z.b2z (negb (String.eqb user_input "yes"))
                    + Z.b2z (negb (String.eqb user_input "no")) =? 1)
      then confirm_loop n rest (out ++ [AskDoing n])
      else (inl user_input, rest, out ++ [AskDoing n])
  end.

Definition set_done (a : activity) : activity :=
  {| name := name a; start_time := start_time a; end_time := end_time a; done := 1 |}.

Definition activity_time (p : nat) : M Z := fun s =>
  match activities s !! p with
  | None => Stuck BadPointer s
  | Some a =>
      if done a =? 0 then
        let '(r, toks, out) := confirm_loop (name a) (stdin_tokens s) (output s) in
        let s1 := with_output out (with_stdin_tokens toks s) in
        match r with
        | inr w => Stuck w s1
        | inl user_input =>
            if String.eqb user_input "yes" then
              (modify (fun s => with_activities (<[p := set_done a]> (activities s)) s) ;;;
               printf (MarkedDone (name a)) ;;;
               clear_terminal ;;;
               ret 0) s1
            else (clear_terminal ;;; ret 1) s1
        end
      else (printf (AlreadyDone (name a)) ;;; clear_terminal ;;; ret 1) s
  end.

(** ** parse_time (Helper.c, 205-231) *)

(** The [sscanf] of [parse_time] stores into [tm_hour] and [tm_min] of the
    static [struct tm]. *)
Definition store_query (input : string) (t : tm) : tm :=
  match sscanf_d_colon_d input with
  | (_, Some h, Some m) => {| tm_sec := tm_sec t; tm_min := m; tm_hour := h |}
  | (_, Some h, None) => {| tm_sec := tm_sec t; tm_min := tm_min t; tm_hour := h |}
  | _ => t
  end.

Definition query_time (input : string) (s : state) : tm :=
  let t_local := localtime (utc_offset s) (current_time s) in
  if negb (String.eqb input "now") then store_query input t_local else t_local.

(** The [for] loop, [i] going from [k - 1] down to 0; the result is
    [activity_status]. *)
Fixpoint parse_sweep (k : nat) (activity_status : Z) : M Z :=
  match k with
  | O => ret activity_status
  | S i => fun s =>
      match activities s !! i with
      | None => Stuck BadPointer s
      | Some a =>
          if is_activity_time a (local_tm s) then
            (printf (TimeFor (name a)) ;;;
             activity_time i ;;;
             parse_sweep i 0) s
          else parse_sweep i activity_status s
      end
  end.

Definition parse_time (input : string) : M unit :=
  modify (fun s => with_local_tm (query_time input s) s) ;;;
  activity_status <- parse_sweep MAX_ACTIVITIES 1 ;;
  (if negb (activity_status =? 0) then printf NoActivity else ret tt) ;;;
  clear_terminal.

(** ** get_speed_factor (Helper.c, 245-256) *)

Fixpoint speed_loop (toks : list string) (out : list event)
  : (Z + stuck) * list string * list event :=
  match toks with
  | [] => (inr AwaitingInput, [], out ++ [SpeedPrompt])
  | input :: rest =>
      if Nat.leb MAX_LENGTH (String.length input)
      then (inr BufferOverrun, rest, out ++ [SpeedPrompt])
      else if negb ((atoi input >? 0) && (atoi input <=? 30))
      then speed_loop rest (out ++ [SpeedPrompt])
      else (inl (atoi input), rest, out ++ [SpeedPrompt])
  end.

Definition get_speed_factor : M unit := fun s =>
  let '(r, toks, out) := speed_loop (stdin_tokens s) (output s) in
  let s1 := with_output out (with_stdin_tokens toks s) in
  match r with
  | inr w => Stuck w s1
  | inl v => clear_terminal (with_speed_factor v s1)
  end.

(** ** get_time (Helper.c, 271-292) and the ticker (Source.c, 48-54) *)

Definition get_time : M unit := fun s =>
  let s1 := if get_current_time_flag s then s
            else with_current_time true (real_time s) s in
  let s2 := if PrimFloat.leb 1 (total_time s1) then
              with_total_time 0
                (with_current_time (get_current_time_flag s1)
                   (Z_of_double (PrimFloat.add (double_of_Z (current_time s1))
                                               (total_time s1))) s1)
            else s1 in
  Ret tt (with_local_tm (localtime (utc_offset s2) (current_time s2)) s2).

(** One round of the [while (1)] of [increment], after its [usleep]. *)
Definition increment (s : state) : state :=
  with_total_time
    (PrimFloat.add (total_time s)
       (PrimFloat.mul (double_of_Z (speed_factor s))
          (PrimFloat.div (double_of_Z delay_us) 1000000)))
    s.

(** ** The latches of is_scheduled and is_due_soon *)

(** [!((check_flags >> i) & 1U)]. *)
Definition flag_clear (flags i : Z) : bool :=
  Z.land (Z.shiftr flags i) 1 =? 0.

(** [if (!previous_min) previous_min = t->tm_min;] *)
Definition latch_enter (t : tm) (l : latch) : latch :=
  {| previous_min := if previous_min l =? 0 then tm_min t else previous_min l;
     check_flags := check_flags l |}.

(** [check_flags |= 1UL << i;] and the reset on a new minute. *)
Definition latch_leave (i : Z) (t : tm) (l : latch) : latch :=
  let flags := Z.lor (check_flags l) (Z.shiftl 1 i) in
  if negb (tm_min t =? previous_min l)
  then {| previous_min := tm_min t; check_flags := 0 |}
  else {| previous_min := previous_min l; check_flags := flags |}.

(** ** is_scheduled (Helper.c, 342-364) *)

Definition scheduled_now (flags : Z) (a : activity) (i : Z) (t : tm) : bool :=
  flag_clear flags i
  && (hour (start_time a) =? tm_hour t)
  && (minute (start_time a) =? tm_min t).

Definition is_scheduled (p : nat) (i : Z) (t : tm) : M Z :=
  modify (fun s => with_sched_latch (latch_enter t (sched_latch s)) s) ;;;
  fun s =>
    match activities s !! p with
    | None => Stuck BadPointer s
    | Some a =>
        (return_val <-
           (if scheduled_now (check_flags (sched_latch s)) a i t then
              printf (TimeFor (name a)) ;;; activity_time p ;;; ret 1
            else ret 0) ;;
         modify (fun s => with_sched_latch (latch_leave i t (sched_latch s)) s) ;;;
         ret return_val) s
    end.

(** ** is_due_soon (Helper.c, 378-402) *)

Definition due_soon_now (flags : Z) (a : activity) (i : Z) (t : tm) : bool :=
  flag_clear flags i
  && is_activity_time a t
  && (((hour (end_time a) =? tm_hour t)
         && (minute (end_time a) - tm_min t =? 10))
      || ((hour (end_time a) =? tm_hour t + 1)
            && (minute (end_time a) + 60 - tm_min t =? 10))).

Definition is_due_soon (p : nat) (i : Z) (t : tm) : M Z :=
  modify (fun s => with_due_latch (latch_enter t (due_latch s)) s) ;;;
  fun s =>
    match activities s !! p with
    | None => Stuck BadPointer s
    | Some a =>
        (return_val <-
           (if due_soon_now (check_flags (due_latch s)) a i t then
              printf (DueSoonNotice (name a)) ;;; activity_time p ;;; ret 1
            else ret 0) ;;
         modify (fun s => with_due_latch (latch_leave i t (due_latch s)) s) ;;;
         ret return_val) s
    end.

(** The minutes that remain until the end, as the due-soon test counts
    them: defined when the end falls in the hour of the sample or in the
    next one. *)
Definition minutes_remaining (a : activity) (t : tm) : option Z :=
  if hour (end_time a) =? tm_hour t then Some (minute (end_time a) - tm_min t)
  else if hour (end_time a) =? tm_hour t + 1
       then Some (minute (end_time a) + 60 - tm_min t)
       else None.

(** ** get_non_blocking_inputs (Helper.c, 416-440) *)

Definition NUL : ascii := Ascii.zero.
Definition newline : ascii := ascii_of_nat 10.

(** The bytes of a [char] array before its first NUL. *)
Fixpoint c_prefix (b : list ascii) : list ascii :=
  match b with
  | c :: r => if Ascii.eqb c NUL then [] else c :: c_prefix r
  | [] => []
  end.

Definition cstr (b : list ascii) : string := string_of_list_ascii (c_prefix b).

Fixpoint write_at (b : list ascii) (pos : nat) (bytes : list ascii) : list ascii :=
  match bytes with
  | [] => b
  | c :: r => write_at (<[pos := c]> b) (S pos) r
  end.

(** [memset(b, '\0', k)]. *)
Definition memset_nul (b : list ascii) (k : nat) : list ascii :=
  replicate k NUL ++ drop k b.

(** [chunk] is what [read] put into [buf]; it is empty when [read] returns
    0 or -1. [strcpy] copies [buf] as a C string and appends the NUL;
    [idx] advances by [n]. The line is looked at only when the last byte
    of the chunk, [buf[n - 1]], is the newline. *)
Definition get_non_blocking_inputs (chunk : list ascii) : M unit := fun s =>
  let n := length chunk in
  if Nat.ltb 0 n then
    if Nat.leb MAX_LENGTH n then Stuck BufferOverrun s
    else
      let buf := c_prefix chunk in
      if Nat.ltb MAX_LENGTH (idx s + length buf + 1) then Stuck BufferOverrun s
      else
        let s1 := with_line (idx s + n)%nat
                    (write_at (temp_buf s) (idx s) (buf ++ [NUL])) s in
        match last chunk with
        | Some c =>
            if Ascii.eqb c newline then
              if Nat.ltb MAX_LENGTH (idx s1) then Stuck BufferOverrun s1
              else
                (modify (fun s => with_line (idx s)
                                    (<[(idx s - 1)%nat := NUL]> (temp_buf s)) s) ;;;
                 (fun s =>
                    (if negb (check_input (cstr (temp_buf s)) =? 0)
                     then parse_time (cstr (temp_buf s))
                     else printf FormatHint) s) ;;;
                 modify (fun s => with_line 0 (memset_nul (temp_buf s) (idx s)) s)) s1
            else Ret tt s1
        | None => Ret tt s1
        end
  else Ret tt s.

(** ** main (Source.c, 8-46) *)

(** What one round of the poll loop meets: the bytes its [read] returns and
    the rounds the ticker thread completes before the clock is sampled. *)
Record poll_env := { chunk : list ascii; ticks : nat }.

Fixpoint for_range (i : nat) (k : nat) (body : nat -> M unit) : M unit :=
  match k with
  | O => ret tt
  | S k' => body i ;;; for_range (S i) k' body
  end.

(** The body of the [for]: both triggers, for an activity not done when
    the round reaches it. *)
Definition check_triggers (i : nat) : M unit := fun s =>
  match activities s !! i with
  | None => Stuck BadPointer s
  | Some a =>
      if done a =? 0 then
        ((fun s => is_scheduled i (Z.of_nat i) (local_tm s) s) ;;;
         (fun s => is_due_soon i (Z.of_nat i) (local_tm s) s) ;;;
         ret tt) s
      else Ret tt s
  end.

Definition poll_iteration (e : poll_env) : M unit :=
  for_range 0 MAX_ACTIVITIES check_triggers ;;;
  get_non_blocking_inputs (chunk e) ;;;
  modify (Nat.iter (ticks e) increment) ;;;
  get_time.

(** The [while] loop over the rounds of a trace. [Ret 0] is the
    [return 0] of [main]; a trace that ends while the guard still holds
    leaves the loop running. *)
Fixpoint main_loop (env : list poll_env) : M Z := fun s =>
  if tm_hour (local_tm s) <? 24 then
    match env with
    | [] => Stuck StillPolling s
    | e :: rest => (poll_iteration e ;;; main_loop rest) s
    end
  else Ret 0 s.

(** The state at the start of [main]. *)
Definition boot (off real : Z) (toks : list string) : state :=
  {| activities := initial_activities;
     speed_factor := 1;
     total_time := 0;
     get_current_time_flag := false;
     current_time := 0;
     local_tm := {| tm_sec := 0; tm_min := 0; tm_hour := 0 |};
     sched_latch := {| previous_min := 0; check_flags := 0 |};
     due_latch := {| previous_min := 0; check_flags := 0 |};
     idx := 0;
     temp_buf := replicate MAX_LENGTH NUL;
     utc_offset := off;
     real_time := real;
     stdin_tokens := toks;
     output := [] |}.

Definition main (env : list poll_env) : M Z :=
  get_speed_factor ;;; get_time ;;; main_loop env.

(** ** Vocabulary of the statements *)

(** The prompt of [activity_time] gets its answer from these tokens. *)
Fixpoint answers (toks : list string) : bool :=
  match toks with
  | [] => false
  | u :: rest =>
      if Nat.leb MAX_LENGTH (String.length u) then false
      else if String.eqb u "yes" || String.eqb u "no" then true
      else answers rest
  end.

(** The [done] flag of every activity that is set stays set, and nothing
    else of the schedule changes. *)
Definition done_kept (s s' : state) : Prop :=
  length (activities s') = length (activities s) /\
  forall (i : nat) (a : activity),
    activities s !! i = Some a ->
    exists a', activities s' !! i = Some a'
      /\ name a' = name a
      /\ start_time a' = start_time a
      /\ end_time a' = end_time a
      /\ (done a <> 0 -> done a' = done a)
      /\ (done a = 0 -> done a' = 0 \/ done a' = 1).

(** An operation keeps the flags when its final state does, whether it
    returns or not. *)
Definition keeps {A} (c : M A) : Prop :=
  forall s, done_kept s (final_state (c s)).

(** The clock, as a sequence of ticker rounds and samples. *)
Inductive clock_step := Tick | Sample.

Definition clock_run (steps : list clock_step) (s : state) : state :=
  fold_left (fun s st => match st with
                         | Tick => increment s
                         | Sample => final_state (get_time s)
                         end) steps s.

(** What one ticker round adds to [total_time]. *)
Definition tick_offset (sf : Z) : float :=
  PrimFloat.mul (double_of_Z sf) (PrimFloat.div (double_of_Z delay_us) 1000000).

(** A sample of the clock at [h]:[m]:00. *)
Definition at_time (h m : Z) : tm := {| tm_sec := 0; tm_min := m; tm_hour := h |}.

(** The bytes of a string literal, as [read] delivers them. *)
Definition bytes (s : string) : list ascii := list_ascii_of_string s.

(** What an operation has printed. *)
Definition emitted (s s' : state) : list event :=
  drop (length (output s)) (output s').

(** One activity announced and passed to [activity_time] by the sweep of
    [parse_time]. *)
Definition visit (i : nat) : M unit := fun s =>
  match activities s !! i with
  | None => Stuck BadPointer s
  | Some a => (printf (TimeFor (name a)) ;;; activity_time i ;;; ret tt) s
  end.

Fixpoint visit_all (w : list nat) : M unit :=
  match w with
  | [] => ret tt
  | i :: rest => visit i ;;; visit_all rest
  end.

(** The indices below [k] whose window contains [t], highest first. *)
Definition window_test (t : tm) (acts : list activity) (i : nat) : bool :=
  match acts !! i with
  | Some a => is_activity_time a t
  | None => false
  end.

Definition in_window (t : tm) (acts : list activity) (k : nat) : list nat :=
  List.filter (window_test t acts) (rev (seq 0 k)).

(** ** Theorems about is_activity_time *)

Lemma tm_of_minute_valid n :
  0 <= n < 1440 -> valid_tm (tm_of_minute n).
Proof.
  intros Hn. unfold valid_tm, tm_of_minute; simpl.
  pose proof (Z.mod_pos_bound n 60 ltac:(lia)).
  assert (0 <= n / 60) by (apply Z.div_pos; lia).
  assert (n / 60 < 24) by (apply Z.div_lt_upper_bound; lia).
  lia.
Qed.

Lemma tm_minute_of_minute n : tm_minute (tm_of_minute n) = n.
Proof.
  unfold tm_minute, tm_of_minute, minute_of_day; simpl.
  pose proof (Z.div_mod n 60 ltac:(lia)). lia.
Qed.

(** The window test agrees with the half-open interval of minutes. *)
Lemma is_activity_time_interval (a : activity) (t : tm) :
  0 <= minute (start_time a) <= 59 ->
  0 <= minute (end_time a) <= 59 ->
  0 <= tm_min t <= 59 ->
  start_minute a < end_minute a ->
  is_activity_time a t = true <-> start_minute a <= tm_minute t < end_minute a.
Proof.
  unfold is_activity_time, start_minute, end_minute, tm_minute, minute_of_day.
  destruct a as [n [sh sm] [eh em] d], t as [ts tmn th]; simpl.
  intros Hs He Ht Hlt.
  repeat match goal with
         | |- context [?x <? ?y] => destruct (Z.ltb_spec x y)
         | |- context [?x >? ?y] => rewrite (Z.gtb_ltb x y)
         | |- context [?x <=? ?y] => destruct (Z.leb_spec x y)
         | |- context [?x =? ?y] => destruct (Z.eqb_spec x y)
         end; simpl; split; intros; try discriminate; try reflexivity; lia.
Qed.

(** C2. For a window with start < end in hour:minute order, hours in 0-23
    and minutes in 0-59, and any sample with hour in 0-23 and minute in
    0-59, [is_activity_time] holds exactly on the half-open interval
    [start, end) of minutes: it is true at the start minute and at the
    minute before the end, false at the end minute and at the minute before
    the start. *)
Theorem is_activity_time_half_open (a : activity) (t : tm) :
  valid_atime (start_time a) ->
  valid_atime (end_time a) ->
  valid_tm t ->
  atime_lt (start_time a) (end_time a) ->
  (is_activity_time a t = true <-> start_minute a <= tm_minute t < end_minute a)
  /\ is_activity_time a (tm_of_minute (start_minute a)) = true
  /\ is_activity_time a (tm_of_minute (end_minute a - 1)) = true
  /\ is_activity_time a (tm_of_minute (end_minute a)) = false
  /\ (0 < start_minute a ->
      is_activity_time a (tm_of_minute (start_minute a - 1)) = false).
Proof.
  intros [Hsh Hsm] [Heh Hem] [Hth Htm] Hlt.
  assert (Hord : start_minute a < end_minute a).
  { unfold start_minute, end_minute, minute_of_day. destruct Hlt; lia. }
  assert (Hs0 : 0 <= start_minute a < 1440)
    by (unfold start_minute, minute_of_day; lia).
  assert (He0 : 0 <= end_minute a < 1440)
    by (unfold end_minute, minute_of_day; lia).
  assert (Hat : forall n, 0 <= n < 1440 ->
            (is_activity_time a (tm_of_minute n) = true <->
             start_minute a <= n < end_minute a)).
  { intros n Hn. destruct (tm_of_minute_valid n Hn) as [_ Hm].
    rewrite is_activity_time_interval by assumption.
    rewrite tm_minute_of_minute. reflexivity. }
  split; [apply is_activity_time_interval; assumption|].
  split; [apply Hat; lia|].
  split; [apply Hat; lia|].
  split.
  - apply not_true_is_false. rewrite Hat by lia. lia.
  - intros Hpos. apply not_true_is_false. rewrite Hat by lia. lia.
Qed.

Lemma is_activity_time_half_open_witness :
  let a := mk_activity "Lunch" 11 0 12 0 in
  let t := {| tm_sec := 30; tm_min := 59; tm_hour := 11 |} in
  (is_activity_time a t = true <-> start_minute a <= tm_minute t < end_minute a)
  /\ is_activity_time a (tm_of_minute (start_minute a)) = true
  /\ is_activity_time a (tm_of_minute (end_minute a - 1)) = true
  /\ is_activity_time a (tm_of_minute (end_minute a)) = false
  /\ (0 < start_minute a ->
      is_activity_time a (tm_of_minute (start_minute a - 1)) = false).
Proof.
  apply (is_activity_time_half_open (mk_activity "Lunch" 11 0 12 0)
           {| tm_sec := 30; tm_min := 59; tm_hour := 11 |}).
  - unfold valid_atime; simpl; lia.
  - unfold valid_atime; simpl; lia.
  - unfold valid_tm; simpl; lia.
  - unfold atime_lt; simpl; lia.
Defined.



(** ** Reasoning about the monad *)

Lemma bind_Ret_inv {A B} (c : M A) (k : A -> M B) s b s' :
  bind c k s = Ret b s' ->
  exists a s1, c s = Ret a s1 /\ k a s1 = Ret b s'.
Proof.
  unfold bind. destruct (c s) as [a s1|w s1]; intros H; [|discriminate].
  exists a, s1. split; [reflexivity | exact H].
Qed.

Lemma bind_final {A B} (c : M A) (k : A -> M B) s :
  final_state (bind c k s) =
  match c s with
  | Ret a s1 => final_state (k a s1)
  | Stuck _ s1 => s1
  end.
Proof. unfold bind. destruct (c s); reflexivity. Qed.

(** ** The done flags are kept by every operation *)

Lemma done_kept_refl s : done_kept s s.
Proof.
  split; [reflexivity|]. intros i a H. exists a.
  repeat split; auto.
Qed.

Lemma done_kept_trans s1 s2 s3 :
  done_kept s1 s2 -> done_kept s2 s3 -> done_kept s1 s3.
Proof.
  intros [L12 H12] [L23 H23]. split; [congruence|].
  intros i a Ha.
  destruct (H12 i a Ha) as (a2 & Ha2 & Hn2 & Hs2 & He2 & Hd2 & Hz2).
  destruct (H23 i a2 Ha2) as (a3 & Ha3 & Hn3 & Hs3 & He3 & Hd3 & Hz3).
  exists a3. repeat split; try congruence.
  - intros Hd. rewrite Hd3; [apply Hd2; exact Hd|]. rewrite (Hd2 Hd). exact Hd.
  - intros Hz. destruct (Hz2 Hz) as [H0|H1].
    + apply Hz3. exact H0.
    + right. rewrite Hd3; [exact H1|]. rewrite H1. discriminate.
Qed.

Lemma done_kept_same_activities s s' :
  activities s' = activities s -> done_kept s s'.
Proof.
  intros E. split; [rewrite E; reflexivity|].
  intros i a H. exists a. rewrite E.
  repeat split; auto.
Qed.

Lemma keeps_ret {A} (a : A) : keeps (ret a).
Proof. intros s. apply done_kept_refl. Qed.

Lemma keeps_bind {A B} (c : M A) (k : A -> M B) :
  keeps c -> (forall a, keeps (k a)) -> keeps (bind c k).
Proof.
  intros Hc Hk s. rewrite bind_final. specialize (Hc s).
  destruct (c s) as [a s1|w s1]; simpl in Hc.
  - eapply done_kept_trans; [exact Hc | apply Hk].
  - exact Hc.
Qed.

Lemma keeps_modify (f : state -> state) :
  (forall s, activities (f s) = activities s) -> keeps (modify f).
Proof. intros H s. apply done_kept_same_activities. simpl. apply H. Qed.

Lemma keeps_printf e : keeps (printf e).
Proof. apply keeps_modify. reflexivity. Qed.

Lemma keeps_clear_terminal : keeps clear_terminal.
Proof. apply keeps_printf. Qed.

Lemma keeps_at {A} (c : state -> M A) :
  (forall s0, keeps (c s0)) -> keeps (fun s => c s s).
Proof. intros H s. apply (H s). Qed.

Lemma done_kept_set_done s p a :
  activities s !! p = Some a -> done a = 0 ->
  done_kept s (with_activities (<[p := set_done a]> (activities s)) s).
Proof.
  intros Hp Hd. split; [simpl; apply length_insert|].
  intros i b Hb. simpl.
  destruct (Nat.eq_dec p i) as [->|Hne].
  - exists (set_done a). rewrite list_lookup_insert_eq
      by (apply lookup_lt_Some in Hb; exact Hb).
    assert (b = a) by congruence. subst b.
    repeat split; auto; try (intros Hc; contradiction).
  - exists b. rewrite list_lookup_insert_ne by exact Hne.
    repeat split; auto.
Qed.

Lemma keeps_activity_time p : keeps (activity_time p).
Proof.
  intros s. unfold activity_time.
  destruct (activities s !! p) as [a|] eqn:Hp; [|apply done_kept_refl].
  destruct (Z.eqb_spec (done a) 0) as [Hd|Hd].
  - destruct (confirm_loop (name a) (stdin_tokens s) (output s))
      as [[r toks] out] eqn:Hloop.
    destruct r as [u|w]; [|apply done_kept_same_activities; reflexivity].
    destruct (String.eqb u "yes").
    + apply (done_kept_trans _
               (with_activities (<[p := set_done a]> (activities s)) s)).
      * apply done_kept_set_done; assumption.
      * apply done_kept_same_activities. reflexivity.
    + apply done_kept_same_activities. reflexivity.
  - apply done_kept_same_activities. reflexivity.
Qed.

Lemma keeps_is_scheduled p i t : keeps (is_scheduled p i t).
Proof.
  unfold is_scheduled. apply keeps_bind; [apply keeps_modify; reflexivity|].
  intros _ s. destruct (activities s !! p) as [a|]; [|apply done_kept_refl].
  apply keeps_bind.
  - destruct (scheduled_now _ a i t); [|apply keeps_ret].
    apply keeps_bind; [apply keeps_printf|]. intros _.
    apply keeps_bind; [apply keeps_activity_time|]. intros _. apply keeps_ret.
  - intros r. apply keeps_bind; [apply keeps_modify; reflexivity|].
    intros _. apply keeps_ret.
Qed.

Lemma keeps_is_due_soon p i t : keeps (is_due_soon p i t).
Proof.
  unfold is_due_soon. apply keeps_bind; [apply keeps_modify; reflexivity|].
  intros _ s. destruct (activities s !! p) as [a|]; [|apply done_kept_refl].
  apply keeps_bind.
  - destruct (due_soon_now _ a i t); [|apply keeps_ret].
    apply keeps_bind; [apply keeps_printf|]. intros _.
    apply keeps_bind; [apply keeps_activity_time|]. intros _. apply keeps_ret.
  - intros r. apply keeps_bind; [apply keeps_modify; reflexivity|].
    intros _. apply keeps_ret.
Qed.

Lemma keeps_parse_sweep k st : keeps (parse_sweep k st).
Proof.
  revert st. induction k as [|i IH]; intros st; [apply keeps_ret|].
  intros s. simpl.
  destruct (activities s !! i) as [a|]; [|apply done_kept_refl].
  destruct (is_activity_time a (local_tm s)); [|apply IH].
  apply keeps_bind; [apply keeps_printf|]. intros _.
  apply keeps_bind; [apply keeps_activity_time|]. intros _. apply IH.
Qed.

Lemma keeps_parse_time input : keeps (parse_time input).
Proof.
  unfold parse_time. apply keeps_bind; [apply keeps_modify; reflexivity|].
  intros _. apply keeps_bind; [apply keeps_parse_sweep|]. intros st.
  apply keeps_bind; [|intros _; apply keeps_clear_terminal].
  destruct (negb (st =? 0)); [apply keeps_printf | apply keeps_ret].
Qed.

Lemma keeps_get_time : keeps get_time.
Proof.
  intros s. apply done_kept_same_activities. unfold get_time. simpl.
  destruct (get_current_time_flag s); simpl;
    match goal with |- context [PrimFloat.leb ?x ?y] =>
      destruct (PrimFloat.leb x y) end; reflexivity.
Qed.

Lemma increment_activities s : activities (increment s) = activities s.
Proof. reflexivity. Qed.

Lemma iter_increment_activities n s :
  activities (Nat.iter n increment s) = activities s.
Proof. induction n as [|n IH]; [reflexivity|]. simpl. exact IH. Qed.

Lemma keeps_get_speed_factor : keeps get_speed_factor.
Proof.
  intros s. unfold get_speed_factor.
  destruct (speed_loop (stdin_tokens s) (output s)) as [[r toks] out].
  destruct r; apply done_kept_same_activities; reflexivity.
Qed.

Lemma keeps_get_non_blocking_inputs c : keeps (get_non_blocking_inputs c).
Proof.
  intros s. unfold get_non_blocking_inputs.
  destruct (Nat.ltb 0 (length c)); [|apply done_kept_refl].
  destruct (Nat.leb MAX_LENGTH (length c)); [apply done_kept_refl|].
  destruct (Nat.ltb MAX_LENGTH _); [apply done_kept_refl|].
  set (s1 := with_line _ _ s).
  assert (H1 : done_kept s s1) by (apply done_kept_same_activities; reflexivity).
  destruct (last c) as [ch|]; [|exact H1].
  destruct (Ascii.eqb ch newline); [|exact H1].
  destruct (Nat.ltb MAX_LENGTH (idx s1)); [exact H1|].
  eapply done_kept_trans; [exact H1|].
  apply keeps_bind; [apply keeps_modify; reflexivity|]. intros _.
  apply keeps_bind; [|intros _; apply keeps_modify; reflexivity].
  intros s2. destruct (negb (check_input (cstr (temp_buf s2)) =? 0)).
  - apply keeps_parse_time.
  - apply keeps_printf.
Qed.

Lemma keeps_check_triggers i : keeps (check_triggers i).
Proof.
  intros s. unfold check_triggers.
  destruct (activities s !! i) as [a|]; [|apply done_kept_refl].
  destruct (done a =? 0); [|apply done_kept_refl].
  apply keeps_bind; [intros s1; apply keeps_is_scheduled|]. intros _.
  apply keeps_bind; [intros s1; apply keeps_is_due_soon|]. intros _.
  apply keeps_ret.
Qed.

Lemma keeps_for_range i k body :
  (forall j, keeps (body j)) -> keeps (for_range i k body).
Proof.
  intros Hb. revert i. induction k as [|k IH]; intros i; [apply keeps_ret|].
  simpl. apply keeps_bind; [apply Hb|]. intros _. apply IH.
Qed.

Lemma keeps_poll_iteration e : keeps (poll_iteration e).
Proof.
  unfold poll_iteration.
  apply keeps_bind; [apply keeps_for_range, keeps_check_triggers|]. intros _.
  apply keeps_bind; [apply keeps_get_non_blocking_inputs|]. intros _.
  apply keeps_bind; [apply keeps_modify, iter_increment_activities|]. intros _.
  apply keeps_get_time.
Qed.

Lemma keeps_main_loop env : keeps (main_loop env).
Proof.
  induction env as [|e rest IH]; intros s; simpl.
  - destruct (tm_hour (local_tm s) <? 24); apply done_kept_refl.
  - destruct (tm_hour (local_tm s) <? 24); [|apply done_kept_refl].
    apply keeps_bind; [apply keeps_poll_iteration|]. intros _. apply IH.
Qed.

(** C10. No operation of the program resets a done flag: after the prompt
    (whatever the answer, and on an activity already done), after either
    per-tick trigger, after a time query, after a read of the input, after
    a round of the ticker or a sample of the clock, after a round of the
    poll loop and after any number of rounds, every activity that was done
    is still done, an activity that was not done is not done or done, and
    names and times are unchanged; this holds also when the operation
    blocks in a prompt. *)
Theorem done_never_reset :
  (forall p s, done_kept s (final_state (activity_time p s)))
  /\ (forall p i t s, done_kept s (final_state (is_scheduled p i t s)))
  /\ (forall p i t s, done_kept s (final_state (is_due_soon p i t s)))
  /\ (forall input s, done_kept s (final_state (parse_time input s)))
  /\ (forall c s, done_kept s (final_state (get_non_blocking_inputs c s)))
  /\ (forall s, done_kept s (increment s))
  /\ (forall s, done_kept s (final_state (get_time s)))
  /\ (forall e s, done_kept s (final_state (poll_iteration e s)))
  /\ (forall env s, done_kept s (final_state (main_loop env s)))
  /\ (forall env s, done_kept s (final_state (main env s))).
Proof.
  repeat apply conj.
  - intros p. apply keeps_activity_time.
  - intros p i t. apply keeps_is_scheduled.
  - intros p i t. apply keeps_is_due_soon.
  - intros input. apply keeps_parse_time.
  - intros c. apply keeps_get_non_blocking_inputs.
  - intros s. apply done_kept_same_activities. reflexivity.
  - apply keeps_get_time.
  - intros e. apply keeps_poll_iteration.
  - intros env. apply keeps_main_loop.
  - intros env. unfold main.
    apply keeps_bind; [apply keeps_get_speed_factor|]. intros _.
    apply keeps_bind; [apply keeps_get_time|]. intros _.
    apply keeps_main_loop.
Qed.

(** ** The poll loop and the hour of the day *)

Lemma localtime_hour_range off t : 0 <= tm_hour (localtime off t) < 24.
Proof. unfold localtime; simpl. apply Z.mod_pos_bound. lia. Qed.

Lemma get_time_hour s u s' :
  get_time s = Ret u s' -> 0 <= tm_hour (local_tm s') < 24.
Proof.
  unfold get_time. intros H. injection H as _ <-. simpl.
  apply localtime_hour_range.
Qed.

Lemma poll_iteration_hour e s u s' :
  poll_iteration e s = Ret u s' -> 0 <= tm_hour (local_tm s') < 24.
Proof.
  unfold poll_iteration. intros H.
  apply bind_Ret_inv in H as (? & s1 & _ & H1).
  apply bind_Ret_inv in H1 as (? & s2 & _ & H2).
  apply bind_Ret_inv in H2 as (? & s3 & _ & H3).
  eapply get_time_hour. exact H3.
Qed.

Lemma main_loop_keeps_polling env s :
  tm_hour (local_tm s) < 24 -> forall r s', main_loop env s <> Ret r s'.
Proof.
  revert s. induction env as [|e rest IH]; intros s Hh r s'; simpl;
    destruct (Z.ltb_spec (tm_hour (local_tm s)) 24) as [Hlt|Hge]; try lia.
  - discriminate.
  - intros Hr. apply bind_Ret_inv in Hr as (u & s1 & Hp & H1).
    apply poll_iteration_hour in Hp. revert H1. apply IH. lia.
Qed.

(** The guard itself: a state whose sampled hour were 24 or more would end
    the loop at once, with the return value 0. *)
Lemma main_loop_guard env s :
  24 <= tm_hour (local_tm s) -> main_loop env s = Ret 0 s.
Proof.
  intros Hh. destruct env; simpl;
    destruct (Z.ltb_spec (tm_hour (local_tm s)) 24); (lia || reflexivity).
Qed.

(** C1 (what the code does). The hour that [localtime] gives is always
    below 24, so the guard [tm_hour < 24] never fails: whatever the speed
    factor, the input and the ticks, [main] does not reach its [return 0];
    it blocks in a prompt or polls on. A run that starts at 23:59:58 at
    speed 30 samples 00:00:01 after one tick, hour 0 of the next day, and is
    still in the loop. *)
Theorem main_never_returns :
  (forall env s r s', main env s <> Ret r s')
  /\ (let o := main [ {| chunk := []; ticks := 1 |} ]
                    (boot 0 86398 ["30"%string]) in
      o = Stuck StillPolling (final_state o)
      /\ local_tm (final_state o) = {| tm_sec := 1; tm_min := 0; tm_hour := 0 |}).
Proof.
  split.
  - intros env s r s' H. unfold main in H.
    apply bind_Ret_inv in H as (? & s1 & _ & H1).
    apply bind_Ret_inv in H1 as (? & s2 & Hg & H2).
    apply get_time_hour in Hg. revert H2.
    apply main_loop_keeps_polling. lia.
  - vm_compute. split; reflexivity.
Qed.

(** ** The simulated clock *)

(** C4 (what the code does). [current_time] is a [time_t]: the sum
    [current_time + total_time] is converted back to an integer, and the
    accumulator is then zeroed, so the fraction of a second it held is
    gone. At speed 15 one ticker round produces 1.5 simulated seconds; the
    sample that follows applies 1 and clears the accumulator; after four
    such rounds 4 seconds are applied of the 6 produced. *)
Theorem get_time_drops_fraction :
  let s0 := with_speed_factor 15 (final_state (get_time (boot 0 1000 []))) in
  let s1 := clock_run [Tick; Sample] s0 in
  let s4 := clock_run [Tick; Sample; Tick; Sample; Tick; Sample; Tick; Sample] s0 in
  tick_offset 15 = 1.5%float
  /\ total_time (increment s0) = 1.5%float
  /\ current_time s1 = current_time s0 + 1
  /\ total_time s1 = 0%float
  /\ current_time s4 = current_time s0 + 4
  /\ total_time s4 = 0%float.
Proof. vm_compute. repeat split; reflexivity. Qed.

(** ** Scanning a time of the grammar *)

Lemma digit_facts c :
  isdigit c = true ->
  isspace c = false /\ Ascii.eqb c "-" = false /\ Ascii.eqb c "+" = false
  /\ 0 <= digit_value c <= 9.
Proof.
  destruct c as [[] [] [] [] [] [] [] []]; vm_compute; intros H;
    try discriminate H; repeat split; discriminate.
Qed.

Lemma scan_int_two_digits a b rest :
  isdigit a = true -> isdigit b = true ->
  match rest with String c _ => isdigit c = false | EmptyString => True end ->
  scan_int (String a (String b rest)) = Converted (two_digits a b) rest.
Proof.
  intros Ha Hb Hrest.
  destruct (digit_facts a Ha) as (Hsp & Hm & Hp & _).
  unfold scan_int. cbn [skip_space]. rewrite Hsp, Hm, Hp. cbn [orb].
  rewrite Ha. cbn [scan_digits]. rewrite Ha, Hb.
  replace (10 * (10 * 0 + digit_value a) + digit_value b) with (two_digits a b)
    by (unfold two_digits; lia).
  destruct rest as [|c r]; cbn [scan_digits]; [reflexivity|].
  rewrite Hrest. reflexivity.
Qed.

(** Every line of the grammar is accepted. *)
Lemma check_input_accepts_grammar input :
  time_query_grammar input = true -> check_input input = 1.
Proof.
  unfold time_query_grammar, check_input.
  destruct (String.eqb input "now"); [reflexivity|]. cbn [orb].
  destruct input as [|h1 [|h2 [|c [|m1 [|m2 [|x r]]]]]]; try discriminate.
  intros H. repeat (apply andb_prop in H as [H ?]).
  apply Ascii.eqb_eq in H. subst c.
  cbn [String.length Nat.eqb negb String.get orb]. 
  unfold sscanf_d_colon_d.
  rewrite scan_int_two_digits by (try assumption; reflexivity).
  cbn [Ascii.eqb Bool.eqb]. 
  rewrite scan_int_two_digits by (try assumption; exact I).
  repeat match goal with Hd : isdigit _ = true |- _ =>
    apply digit_facts in Hd as (_ & _ & _ & ?) end.
  repeat match goal with Hd : (_ <=? _) = true |- _ => apply Z.leb_le in Hd end.
  unfold two_digits in *.
  repeat match goal with
         | |- context [?x <? ?y] => destruct (Z.ltb_spec x y); [lia|]
         | |- context [?x >? ?y] => rewrite (Z.gtb_ltb x y)
         end.
  reflexivity.
Qed.

(** ** The per-minute latches *)

Lemma flag_clear_testbit flags i :
  0 <= i -> flag_clear flags i = negb (Z.testbit flags i).
Proof.
  intros Hi. unfold flag_clear.
  change 1 with (Z.ones 1). rewrite Z.land_ones by lia.
  change (2 ^ 1) with 2. rewrite <- Z.bit0_mod.
  rewrite Z.shiftr_spec by lia. rewrite Z.add_0_l.
  destruct (Z.testbit flags i); reflexivity.
Qed.

(** When the stored minute is not 0 and the sample is in another minute,
    the call leaves the mask empty. *)
Lemma latch_cleared_on_new_minute i t l :
  previous_min l <> 0 ->
  tm_min t <> previous_min l ->
  latch_leave i t (latch_enter t l) = {| previous_min := tm_min t; check_flags := 0 |}.
Proof.
  intros Hnz Hne. unfold latch_leave, latch_enter; simpl.
  destruct (Z.eqb_spec (previous_min l) 0); [contradiction|].
  destruct (Z.eqb_spec (tm_min t) (previous_min l)); [contradiction|].
  reflexivity.
Qed.

(** When the stored minute is 0, it is replaced by the minute of the
    sample before the two are compared: the mask is kept, with the bit of
    the index added. *)
Lemma latch_kept_after_minute_zero i t l :
  previous_min l = 0 ->
  latch_leave i t (latch_enter t l) =
  {| previous_min := tm_min t;
     check_flags := Z.lor (check_flags l) (Z.shiftl 1 i) |}.
Proof.
  intros Hz. unfold latch_leave, latch_enter; simpl. rewrite Hz; simpl.
  rewrite Z.eqb_refl. reflexivity.
Qed.

(** With an index of the schedule the mask stays below [2 ^ 10]: the
    [int] that holds it never wraps. *)
Lemma latch_leave_flags_range i t l :
  0 <= i < Z.of_nat MAX_ACTIVITIES ->
  0 <= check_flags l < 2 ^ 10 ->
  0 <= check_flags (latch_leave i t l) < 2 ^ 10.
Proof.
  intros Hi Hf. unfold latch_leave.
  destruct (negb (tm_min t =? previous_min l)); cbn [check_flags]; [lia|].
  rewrite Z.shiftl_1_l.
  assert (Hp : 0 < 2 ^ i) by (apply Z.pow_pos_nonneg; lia).
  assert (Hnn : 0 <= Z.lor (check_flags l) (2 ^ i)) by (apply Z.lor_nonneg; lia).
  split; [exact Hnn|].
  assert (Hpos : 0 < Z.lor (check_flags l) (2 ^ i)).
  { assert (Z.lor (check_flags l) (2 ^ i) <> 0); [|lia].
    intros H0. apply Z.lor_eq_0_iff in H0. lia. }
  apply Z.log2_lt_pow2; [exact Hpos|].
  rewrite Z.log2_lor by lia. rewrite Z.log2_pow2 by lia.
  change (Z.of_nat MAX_ACTIVITIES) with 10 in Hi.
  destruct (Z.eq_dec (check_flags l) 0) as [E|E].
  - rewrite E. change (Z.log2 0) with 0. lia.
  - assert (Z.log2 (check_flags l) < 10) by (apply Z.log2_lt_pow2; lia). lia.
Qed.

(** A call that stays in the stored minute leaves the bit of its index
    set, so the next call in that minute does not fire. *)
Lemma latch_leave_sets_bit i t l :
  0 <= i ->
  tm_min t = previous_min l ->
  flag_clear (check_flags (latch_leave i t l)) i = false.
Proof.
  intros Hi Hm. unfold latch_leave. rewrite Hm, Z.eqb_refl. cbn [negb check_flags].
  rewrite flag_clear_testbit by exact Hi.
  rewrite Z.lor_spec, Z.shiftl_spec by exact Hi.
  rewrite Z.sub_diag. change (Z.testbit 1 0) with true.
  rewrite orb_true_r. reflexivity.
Qed.

Local Open Scope string_scope.

(** C3 (what the code does). The value 0 of [previous_min] stands both for
    "no minute seen yet" and for minute 0. After a call in minute 0, a call
    in minute 1 does not clear the mask, in [is_scheduled] and in
    [is_due_soon] alike: bit 1, set at 9:00, is still set after the call at
    9:01. An activity that starts at 9:01, polled at 9:00 and then at 9:01,
    does not fire at 9:01. In the poll loop started at 9:00:57 at speed 30,
    the round sampled at 9:01:00 leaves all ten bits of both masks set. *)
Theorem latch_not_cleared_after_minute_zero :
  let s0 := boot 0 0 ["no"] in
  let s1 := final_state (is_scheduled 1 1 (at_time 9 0) s0) in
  let s2 := final_state (is_scheduled 1 1 (at_time 9 1) s1) in
  let d1 := final_state (is_due_soon 1 1 (at_time 9 0) s0) in
  let d2 := final_state (is_due_soon 1 1 (at_time 9 1) d1) in
  let q0 := with_activities [mk_activity "Pills" 9 1 9 30] (boot 0 0 []) in
  let q1 := final_state (is_scheduled 0 0 (at_time 9 0) q0) in
  let q2 := final_state (is_scheduled 0 0 (at_time 9 1) q1) in
  let fast := {| chunk := []; ticks := 1 |} in
  let m1 := final_state (main [fast] (boot 0 32457 ["30"; "no"])) in
  let m2 := final_state (main [fast; fast] (boot 0 32457 ["30"; "no"])) in
  sched_latch s1 = {| previous_min := 0; check_flags := 2 |}
  /\ sched_latch s2 = {| previous_min := 1; check_flags := 2 |}
  /\ due_latch d1 = {| previous_min := 0; check_flags := 2 |}
  /\ due_latch d2 = {| previous_min := 1; check_flags := 2 |}
  /\ is_scheduled 0 0 (at_time 9 1) q1 = Ret 0 q2
  /\ is_scheduled 0 0 (at_time 9 1) q2 = Ret 0 q2
  /\ output q2 = []
  /\ local_tm m1 = {| tm_sec := 0; tm_min := 1; tm_hour := 9 |}
  /\ sched_latch m1 = {| previous_min := 0; check_flags := 1023 |}
  /\ sched_latch m2 = {| previous_min := 1; check_flags := 1023 |}
  /\ due_latch m2 = {| previous_min := 1; check_flags := 1023 |}.
Proof. vm_compute. repeat split; reflexivity. Qed.

(** C6 (what the code does). The bit of the index is set before the mask
    is cleared, so a trigger that fires on the first call of a new minute
    leaves its own bit clear. Polled at 8:48, 8:49, 8:50 and 8:50 with the
    answer "no", the start trigger of "Breakfast" (8:50) fires on both
    calls at 8:50; polled at 9:18, 9:19, 9:20 and 9:20, its due-soon
    trigger (end 9:30) fires on both calls at 9:20. In the poll loop, at
    speed 30, with a "now" query in the rounds sampled at 8:48:00 and
    8:49:00 (its screen delay lets the ticker run 20 rounds, one simulated
    minute), the next samples are 8:50:00 and 8:50:03, and the start notice
    is printed in each of these two rounds. *)
Theorem trigger_fires_twice_in_a_minute :
  let s0 := boot 0 0 ["no"; "no"] in
  let s1 := final_state (is_scheduled 0 0 (at_time 8 48) s0) in
  let s2 := final_state (is_scheduled 0 0 (at_time 8 49) s1) in
  let s3 := final_state (is_scheduled 0 0 (at_time 8 50) s2) in
  let s4 := final_state (is_scheduled 0 0 (at_time 8 50) s3) in
  let d1 := final_state (is_due_soon 0 0 (at_time 9 18) s0) in
  let d2 := final_state (is_due_soon 0 0 (at_time 9 19) d1) in
  let d3 := final_state (is_due_soon 0 0 (at_time 9 20) d2) in
  let d4 := final_state (is_due_soon 0 0 (at_time 9 20) d3) in
  let slow := {| chunk := (bytes "now" ++ [newline])%list; ticks := 20 |} in
  let fast := {| chunk := []; ticks := 1 |} in
  let m0 := boot 0 31680 ["30"; "no"; "no"] in
  let m2 := final_state (main [slow; slow] m0) in
  let m3 := final_state (main [slow; slow; fast] m0) in
  let m4 := final_state (main [slow; slow; fast; fast] m0) in
  is_scheduled 0 0 (at_time 8 50) s2 = Ret 1 s3
  /\ is_scheduled 0 0 (at_time 8 50) s3 = Ret 1 s4
  /\ output s4 = [TimeFor "Breakfast"; AskDoing "Breakfast"; ClearScreen;
                  TimeFor "Breakfast"; AskDoing "Breakfast"; ClearScreen]
  /\ is_due_soon 0 0 (at_time 9 20) d2 = Ret 1 d3
  /\ is_due_soon 0 0 (at_time 9 20) d3 = Ret 1 d4
  /\ output d4 = [DueSoonNotice "Breakfast"; AskDoing "Breakfast"; ClearScreen;
                  DueSoonNotice "Breakfast"; AskDoing "Breakfast"; ClearScreen]
  /\ local_tm m2 = {| tm_sec := 0; tm_min := 50; tm_hour := 8 |}
  /\ emitted m2 m3 = [TimeFor "Breakfast"; AskDoing "Breakfast"; ClearScreen]
  /\ local_tm m3 = {| tm_sec := 3; tm_min := 50; tm_hour := 8 |}
  /\ emitted m3 m4 = [TimeFor "Breakfast"; AskDoing "Breakfast"; ClearScreen].
Proof. vm_compute. repeat split; reflexivity. Qed.

(** ** The time query *)

(** The examples of the specification. *)
Lemma check_input_examples :
  check_input "now" = 1 /\ check_input "12:30" = 1 /\ check_input "9:30" = 0
  /\ check_input "24:00" = 0 /\ check_input "12:60" = 0.
Proof. vm_compute. repeat split; reflexivity. Qed.

(** C7 (what the code does). [sscanf] with ["%d:%d"] skips white space,
    takes a sign, and stops at the first byte that is not a digit: with
    five bytes and the colon in place, [check_input] accepts lines that are
    not of the form HH:MM with digits only, such as "12:3a" (read as
    12:03), " 9:30" and "+1:-0". *)
Theorem check_input_accepts_outside_grammar :
  check_input "12:3a" = 1 /\ time_query_grammar "12:3a" = false
  /\ query_time "12:3a" (boot 0 0 []) = {| tm_sec := 0; tm_min := 3; tm_hour := 12 |}
  /\ check_input " 9:30" = 1 /\ time_query_grammar " 9:30" = false
  /\ check_input "+1:-0" = 1 /\ time_query_grammar "+1:-0" = false.
Proof. vm_compute. repeat split; reflexivity. Qed.

(** C8 (what the code does). Only the last byte of a chunk is compared
    with the newline. When one [read] returns "now", a newline and "12",
    nothing is validated: no query is run and no hint is printed, and the
    six bytes stay in the accumulator; the line that a later chunk ends
    is then the whole "now\n12:30", which is rejected. When one [read]
    returns the two lines "now" and "11:30" together, the single line
    "now\n11:30" is rejected and both queries are lost, while each line
    read on its own is answered. *)
Theorem newline_inside_chunk_not_validated :
  let s0 := boot 0 0 ["no"] in
  let o1 := get_non_blocking_inputs (bytes "now" ++ [newline] ++ bytes "12")%list s0 in
  let o2 := get_non_blocking_inputs (bytes ":30" ++ [newline])%list (final_state o1) in
  let o3 := get_non_blocking_inputs
              (bytes "now" ++ [newline] ++ bytes "11:30" ++ [newline])%list s0 in
  let o4 := get_non_blocking_inputs (bytes "now" ++ [newline])%list s0 in
  let o5 := get_non_blocking_inputs (bytes "11:30" ++ [newline])%list s0 in
  o1 = Ret tt (final_state o1)
  /\ output (final_state o1) = []
  /\ idx (final_state o1) = 6%nat
  /\ c_prefix (temp_buf (final_state o1)) = (bytes "now" ++ [newline] ++ bytes "12")%list
  /\ output (final_state o2) = [FormatHint]
  /\ idx (final_state o2) = 0%nat
  /\ output (final_state o3) = [FormatHint]
  /\ output (final_state o4) = [NoActivity; ClearScreen]
  /\ output (final_state o5) = [TimeFor "Lunch"; AskDoing "Lunch"; ClearScreen; ClearScreen].
Proof. vm_compute. repeat split; reflexivity. Qed.

Local Close Scope string_scope.

(** ** activity_time returns when the user answers *)

Lemma confirm_loop_output n toks out :
  exists d, snd (confirm_loop n toks out) = out ++ d
            /\ Forall (fun e => e = AskDoing n) d.
Proof.
  revert out. induction toks as [|u rest IH]; intros out; cbn [confirm_loop].
  - exists [AskDoing n]. split; [reflexivity | repeat constructor].
  - destruct (Nat.leb MAX_LENGTH (String.length u)); cbn [snd].
    + exists [AskDoing n]. split; [reflexivity | repeat constructor].
    + destruct (negb _); cbn [snd].
      * destruct (IH (out ++ [AskDoing n])) as (d & Hd & Hall).
        exists (AskDoing n :: d). split.
        -- rewrite Hd, <- app_assoc. reflexivity.
        -- constructor; [reflexivity | exact Hall].
      * exists [AskDoing n]. split; [reflexivity | repeat constructor].
Qed.

Lemma confirm_loop_answers n toks out :
  answers toks = true ->
  exists u rest, fst (confirm_loop n toks out) = (inl u, rest).
Proof.
  revert out. induction toks as [|u rest IH]; intros out;
    cbn [confirm_loop answers]; [discriminate|].
  destruct (Nat.leb MAX_LENGTH (String.length u)); [discriminate|].
  destruct (String.eqb_spec u "yes") as [->|Hy]; cbn [negb orb Z.b2z].
  - intros _. eexists _, _. reflexivity.
  - destruct (String.eqb_spec u "no") as [->|Hn]; cbn [negb orb Z.b2z].
    + intros _. eexists _, _. reflexivity.
    + apply IH.
Qed.

(** What [activity_time] leaves alone, and what it prints. *)
Lemma activity_time_frame p s :
  let s' := final_state (activity_time p s) in
  local_tm s' = local_tm s
  /\ sched_latch s' = sched_latch s
  /\ due_latch s' = due_latch s
  /\ exists d, output s' = output s ++ d /\ ~ In NoActivity d.
Proof.
  unfold activity_time.
  destruct (activities s !! p) as [a|]; simpl.
  2:{ repeat split. exists []. rewrite app_nil_r. auto. }
  destruct (done a =? 0).
  - destruct (confirm_loop_output (name a) (stdin_tokens s) (output s))
      as (d & Hd & Hall).
    assert (Hno : ~ In NoActivity d).
    { intros Hin. rewrite Forall_forall in Hall.
      apply list_elem_of_In in Hin. specialize (Hall _ Hin). discriminate. }
    destruct (confirm_loop (name a) (stdin_tokens s) (output s))
      as [[r toks] out]. simpl in Hd. subst out.
    destruct r as [u|w]; simpl.
    + destruct (String.eqb u "yes"); simpl; repeat split.
      * exists (d ++ [MarkedDone (name a); ClearScreen]). split.
        -- rewrite <- !app_assoc. reflexivity.
        -- rewrite in_app_iff. simpl. intuition discriminate.
      * exists (d ++ [ClearScreen]). split.
        -- rewrite <- !app_assoc. reflexivity.
        -- rewrite in_app_iff. simpl. intuition discriminate.
    + repeat split. exists d. auto.
  - simpl. repeat split.
    exists [AlreadyDone (name a); ClearScreen]. split.
    + rewrite <- !app_assoc. reflexivity.
    + simpl. intuition discriminate.
Qed.

Lemma activity_time_returns p a s :
  activities s !! p = Some a ->
  done a <> 0 \/ answers (stdin_tokens s) = true ->
  exists r s', activity_time p s = Ret r s'.
Proof.
  intros Hp Hans. unfold activity_time. rewrite Hp.
  destruct (Z.eqb_spec (done a) 0) as [Hd|Hd].
  - destruct Hans as [Hc|Hans]; [contradiction|].
    destruct (confirm_loop_answers (name a) _ (output s) Hans) as (u & rest & Hu).
    destruct (confirm_loop (name a) (stdin_tokens s) (output s))
      as [[r toks] out]. simpl in Hu. injection Hu as -> ->.
    destruct (String.eqb u "yes"); eexists _, _; reflexivity.
  - eexists _, _. reflexivity.
Qed.

(** ** The due-soon trigger *)

Lemma ten_minutes_left a t :
  ((hour (end_time a) =? tm_hour t) && (minute (end_time a) - tm_min t =? 10)
   || (hour (end_time a) =? tm_hour t + 1)
      && (minute (end_time a) + 60 - tm_min t =? 10)) = true
  <-> minutes_remaining a t = Some 10.
Proof.
  unfold minutes_remaining.
  destruct (Z.eqb_spec (hour (end_time a)) (tm_hour t)) as [E|E]; simpl.
  - destruct (Z.eqb_spec (hour (end_time a)) (tm_hour t + 1)); [lia|]. simpl.
    rewrite orb_false_r, Z.eqb_eq. split; intros H; [f_equal; exact H|].
    injection H as H. exact H.
  - destruct (Z.eqb_spec (hour (end_time a)) (tm_hour t + 1)); simpl.
    + rewrite Z.eqb_eq. split; intros H; [f_equal; exact H|].
      injection H as H. exact H.
    + split; discriminate.
Qed.

(** C5. With the latch bit of [i] clear, and a user who answers the prompt
    (or an activity already done, which is not prompted), [is_due_soon]
    returns 1 or 0, and it returns 1, having printed the due-soon notice
    first, exactly when [is_activity_time] holds and ten minutes remain,
    counted as [end.minute - t.min] in the hour of the end and as
    [end.minute + 60 - t.min] in the hour before; when it returns 0 it
    prints nothing. *)
Theorem is_due_soon_fires_iff (s : state) (p : nat) (i : Z) (t : tm) (a : activity) :
  activities s !! p = Some a ->
  0 <= i ->
  Z.testbit (check_flags (due_latch s)) i = false ->
  done a <> 0 \/ answers (stdin_tokens s) = true ->
  exists r s', is_due_soon p i t s = Ret r s'
    /\ (r = 1 \/ r = 0)
    /\ (r = 1 <-> is_activity_time a t = true /\ minutes_remaining a t = Some 10)
    /\ (r = 1 -> exists d, emitted s s' = DueSoonNotice (name a) :: d)
    /\ (r = 0 -> emitted s s' = []).
Proof.
  intros Hp Hi Hbit Hans.
  unfold is_due_soon, bind at 1, modify.
  cbn [activities with_due_latch due_latch check_flags latch_enter].
  rewrite Hp. unfold due_soon_now.
  rewrite flag_clear_testbit, Hbit by exact Hi. cbn [negb andb].
  destruct (is_activity_time a t) eqn:Hw; cbn [andb].
  2:{ eexists 0, _. split; [reflexivity|]. split; [right; reflexivity|].
      split; [split; [discriminate | intros [? _]; discriminate]|].
      split; [discriminate|]. intros _. unfold emitted. cbn.
      apply drop_all. }
  match goal with |- context [if ?c then _ else _] => destruct c eqn:Hten end.
  - pose (s0 := with_due_latch (latch_enter t (due_latch s)) s).
    pose (s1 := with_output (output s0 ++ [DueSoonNotice (name a)]) s0).
    assert (Hp1 : activities s1 !! p = Some a) by exact Hp.
    assert (Hans1 : done a <> 0 \/ answers (stdin_tokens s1) = true) by exact Hans.
    destruct (activity_time_returns p a s1 Hp1 Hans1) as (r & s2 & Hret).
    destruct (activity_time_frame p s1) as (_ & _ & _ & d & Hout & _).
    rewrite Hret in Hout. cbn [final_state] in Hout.
    eexists 1, _. split.
    { unfold bind, printf, modify. fold s0. fold s1. rewrite Hret. reflexivity. }
    split; [left; reflexivity|].
    split; [split; [intros _; split; [reflexivity | apply ten_minutes_left, Hten]
                   | reflexivity]|].
    split; [|discriminate].
    intros _. exists d. unfold emitted. cbn [output with_due_latch].
    rewrite Hout. subst s1 s0. cbn [output with_output with_due_latch].
    rewrite <- app_assoc. rewrite drop_app_length. reflexivity.
  - eexists 0, _. split; [reflexivity|]. split; [right; reflexivity|].
    split.
    + split; [discriminate|]. intros [_ H10].
      apply ten_minutes_left in H10. congruence.
    + split; [discriminate|]. intros _. unfold emitted. cbn. apply drop_all.
Qed.

Lemma is_due_soon_fires_iff_witness :
  exists r s', is_due_soon 3 3 (at_time 11 50) (boot 0 0 ["no"%string]) = Ret r s'
    /\ (r = 1 \/ r = 0)
    /\ (r = 1 <-> is_activity_time (mk_activity "Lunch" 11 0 12 0) (at_time 11 50) = true
                  /\ minutes_remaining (mk_activity "Lunch" 11 0 12 0) (at_time 11 50)
                     = Some 10)
    /\ (r = 1 -> exists d, emitted (boot 0 0 ["no"%string]) s'
                           = DueSoonNotice (name (mk_activity "Lunch" 11 0 12 0)) :: d)
    /\ (r = 0 -> emitted (boot 0 0 ["no"%string]) s' = []).
Proof.
  apply (is_due_soon_fires_iff (boot 0 0 ["no"%string]) 3 3 (at_time 11 50)
           (mk_activity "Lunch" 11 0 12 0)).
  - reflexivity.
  - lia.
  - reflexivity.
  - right. reflexivity.
Defined.

(** ** The sweep of parse_time *)

Lemma is_activity_time_ext a b t :
  start_time a = start_time b -> end_time a = end_time b ->
  is_activity_time a t = is_activity_time b t.
Proof. intros Hs He. unfold is_activity_time. rewrite Hs, He. reflexivity. Qed.

Lemma in_window_S t acts i :
  in_window t acts (S i) =
  if window_test t acts i then i :: in_window t acts i else in_window t acts i.
Proof.
  unfold in_window. rewrite seq_S, rev_unit. simpl. reflexivity.
Qed.

Lemma visit_frame i s :
  let s' := final_state (visit i s) in
  local_tm s' = local_tm s
  /\ done_kept s s'
  /\ exists d, output s' = output s ++ d /\ ~ In NoActivity d.
Proof.
  unfold visit. destruct (activities s !! i) as [a|] eqn:Ha; simpl.
  2:{ split; [reflexivity|]. split; [apply done_kept_refl|].
      exists []. rewrite app_nil_r. auto. }
  unfold bind, printf, modify.
  set (s1 := with_output (output s ++ [TimeFor (name a)]) s).
  destruct (activity_time_frame i s1) as (Ht & _ & _ & d & Hout & Hno).
  pose proof (keeps_activity_time i s1) as Hk.
  assert (H1 : done_kept s s1) by (apply done_kept_same_activities; reflexivity).
  destruct (activity_time i s1) as [r s2|w s2]; simpl in *.
  all: split; [exact Ht|]; split; [eapply done_kept_trans; eassumption|].
  all: exists (TimeFor (name a) :: d); split;
    [rewrite Hout; subst s1; simpl; rewrite <- app_assoc; reflexivity
    |simpl; intros [Hc|Hc]; [discriminate | contradiction]].
Qed.

Lemma visit_all_frame w s :
  let s' := final_state (visit_all w s) in
  local_tm s' = local_tm s
  /\ done_kept s s'
  /\ exists d, output s' = output s ++ d /\ ~ In NoActivity d.
Proof.
  revert s. induction w as [|i rest IH]; intros s; simpl.
  - split; [reflexivity|]. split; [apply done_kept_refl|].
    exists []. rewrite app_nil_r. auto.
  - rewrite bind_final.
    destruct (visit_frame i s) as (Ht & Hk & d & Hout & Hno).
    destruct (visit i s) as [u s1|w' s1]; simpl in *.
    + destruct (IH s1) as (Ht2 & Hk2 & d2 & Hout2 & Hno2).
      split; [congruence|]. split; [eapply done_kept_trans; eassumption|].
      exists (d ++ d2). split.
      * rewrite Hout2, Hout, <- app_assoc. reflexivity.
      * rewrite in_app_iff. tauto.
    + split; [exact Ht|]. split; [exact Hk|]. exists d. auto.
Qed.

Lemma window_test_kept t s0 s i :
  done_kept s0 s ->
  window_test t (activities s) i = window_test t (activities s0) i.
Proof.
  intros [Hlen Hk]. unfold window_test.
  destruct (activities s0 !! i) as [a0|] eqn:H0.
  - destruct (Hk i a0 H0) as (a & Ha & _ & Hs & He & _). rewrite Ha.
    apply is_activity_time_ext; assumption.
  - apply lookup_ge_None in H0. rewrite <- Hlen in H0.
    apply lookup_ge_None in H0. rewrite H0. reflexivity.
Qed.

(** The loop of [parse_time] is [visit] applied to the indices in the
    window, highest first; the status is cleared when there is one. *)
Lemma parse_sweep_visits k :
  forall st s0 s,
    (k <= length (activities s0))%nat ->
    done_kept s0 s ->
    parse_sweep k st s =
    (visit_all (in_window (local_tm s) (activities s0) k) ;;;
     ret (match in_window (local_tm s) (activities s0) k with
          | [] => st
          | _ => 0
          end)) s.
Proof.
  induction k as [|i IH]; intros st s0 s Hk Hkept; [reflexivity|].
  rewrite in_window_S. cbn [parse_sweep].
  rewrite <- (window_test_kept (local_tm s) s0 s i Hkept).
  unfold window_test.
  assert (Hlt : (i < length (activities s))%nat) by (destruct Hkept as [-> _]; lia).
  destruct (lookup_lt_is_Some_2 _ _ Hlt) as [a Ha]. rewrite Ha.
  destruct (is_activity_time a (local_tm s)) eqn:Hw.
  - pose proof (visit_frame i s) as Hf. unfold visit in Hf |- *.
    cbn [visit_all]. unfold visit. unfold bind at 1 2 3 4 5.
    rewrite Ha in Hf |- *. unfold bind in Hf |- *.
    destruct (printf (TimeFor (name a)) s) as [u1 s1|w1 s1]; [|reflexivity].
    destruct (activity_time i s1) as [r s2|w2 s2]; [|reflexivity].
    cbn in Hf. destruct Hf as (Ht & Hk2 & _).
    rewrite (IH 0 s0 s2) by (try lia; eapply done_kept_trans; eassumption).
    rewrite Ht. unfold bind, ret.
    destruct (visit_all (in_window (local_tm s) (activities s0) i) s2); [|reflexivity].
    destruct (in_window (local_tm s) (activities s0) i); reflexivity.
  - apply IH; [lia | exact Hkept].
Qed.

Lemma visit_done i a s :
  activities s !! i = Some a ->
  done a <> 0 ->
  visit i s =
  Ret tt (with_output
            (output s ++ [TimeFor (name a); AlreadyDone (name a); ClearScreen]) s).
Proof.
  intros Ha Hd. unfold visit. rewrite Ha.
  unfold bind, printf, modify, activity_time. cbn [activities with_output].
  rewrite Ha. destruct (Z.eqb_spec (done a) 0); [contradiction|].
  unfold bind, printf, clear_terminal, printf, modify, ret.
  cbn [output with_output]. rewrite <- !app_assoc. reflexivity.
Qed.

(** C9. [parse_time] goes through the indices 9, 8, ..., 0 and sends
    to [activity_time], in that order, exactly the activities whose window
    contains the query time according to [is_activity_time]; an activity in
    the window that is already done is sent too, and is answered with
    its already-done notice. The no-activity notice is printed if and only
    if no window contains the query time. *)
Theorem parse_time_sweeps_every_window (input : string) (s : state) :
  length (activities s) = MAX_ACTIVITIES ->
  let t := query_time input s in
  let w := in_window t (activities s) MAX_ACTIVITIES in
  parse_time input s =
    (modify (with_local_tm t) ;;;
     visit_all w ;;;
     match w with [] => printf NoActivity | _ => ret tt end ;;;
     clear_terminal) s
  /\ w = List.filter (window_test t (activities s)) [9; 8; 7; 6; 5; 4; 3; 2; 1; 0]%nat
  /\ (forall i, In i w <->
        exists a, (i < MAX_ACTIVITIES)%nat /\ activities s !! i = Some a
                  /\ is_activity_time a t = true)
  /\ (forall i a s1, activities s1 !! i = Some a -> done a <> 0 ->
        visit i s1 =
        Ret tt (with_output
                  (output s1 ++ [TimeFor (name a); AlreadyDone (name a); ClearScreen])
                  s1))
  /\ (In NoActivity (emitted s (final_state (parse_time input s))) <-> w = []).
Proof.
  intros Hlen t w.
  set (sq := with_local_tm t s).
  assert (Hsweep : parse_sweep MAX_ACTIVITIES 1 sq =
                   (visit_all w ;;; ret (match w with [] => 1 | _ => 0 end)) sq).
  { apply (parse_sweep_visits MAX_ACTIVITIES 1 s sq).
    - rewrite Hlen. reflexivity.
    - apply done_kept_same_activities. reflexivity. }
  assert (Heq : parse_time input s =
    (modify (with_local_tm t) ;;;
     visit_all w ;;;
     match w with [] => printf NoActivity | _ => ret tt end ;;;
     clear_terminal) s).
  { unfold parse_time, bind, modify.
    change (parse_sweep MAX_ACTIVITIES 1 (with_local_tm (query_time input s) s))
      with (parse_sweep MAX_ACTIVITIES 1 sq).
    rewrite Hsweep. unfold bind. change (with_local_tm t s) with sq.
    destruct (visit_all w sq) as [u s1|w1 s1]; [|reflexivity].
    unfold ret. destruct w; reflexivity. }
  split; [exact Heq|].
  split; [reflexivity|].
  split.
  { intros i. unfold w, in_window. rewrite filter_In, <- in_rev, in_seq.
    unfold window_test. split.
    - intros [Hi Ht]. destruct (activities s !! i) as [a|]; [|discriminate].
      exists a. split; [lia|]. split; [reflexivity | exact Ht].
    - intros (a & Hi & Ha & Ht). rewrite Ha. split; [lia | exact Ht]. }
  split; [intros i a s1; apply visit_done|].
  rewrite Heq. unfold emitted.
  unfold bind at 1. unfold modify at 1. change (with_local_tm t s) with sq.
  rewrite bind_final.
  destruct (visit_all_frame w sq) as (_ & _ & d & Hout & Hno).
  destruct w as [|i rest].
  - cbn. rewrite <- app_assoc, drop_app_length.
    split; [reflexivity|]. intros _. left. reflexivity.
  - destruct (visit_all (i :: rest) sq) as [u s1|w1 s1]; cbn in Hout |- *.
    + rewrite Hout, <- app_assoc, drop_app_length, in_app_iff.
      split; [|discriminate]. intros [Hc|[Hc|[]]]; [contradiction | discriminate].
    + rewrite Hout, drop_app_length. split; [contradiction | discriminate].
Qed.

Lemma parse_time_sweeps_every_window_witness :
  let s := boot 0 0 ["no"%string] in
  let t := query_time "11:30" s in
  let w := in_window t (activities s) MAX_ACTIVITIES in
  parse_time "11:30" s =
    (modify (with_local_tm t) ;;;
     visit_all w ;;;
     match w with [] => printf NoActivity | _ => ret tt end ;;;
     clear_terminal) s
  /\ w = List.filter (window_test t (activities s)) [9; 8; 7; 6; 5; 4; 3; 2; 1; 0]%nat
  /\ (forall i, In i w <->
        exists a, (i < MAX_ACTIVITIES)%nat /\ activities s !! i = Some a
                  /\ is_activity_time a t = true)
  /\ (forall i a s1, activities s1 !! i = Some a -> done a <> 0 ->
        visit i s1 =
        Ret tt (with_output
                  (output s1 ++ [TimeFor (name a); AlreadyDone (name a); ClearScreen])
                  s1))
  /\ (In NoActivity (emitted s (final_state (parse_time "11:30" s))) <-> w = []).
Proof.
  apply (parse_time_sweeps_every_window "11:30" (boot 0 0 ["no"%string])).
  reflexivity.
Defined.
